(** * Blue Prism -> OpenAI bridge: a shallow embedding of [bridge/app.py]

    The bridge is a Flask application with two POST routes, [/analyze] and
    [/chat].  Each view reads the JSON body, validates it, calls the OpenAI
    SDK once, and answers with a JSON envelope; SDK failures are translated
    by a chain of [except] clauses, and whatever escapes a view is answered
    by the application's error handlers.

    The development follows the source top to bottom:
    - [Py]: the Python values and runtime behaviour the views rely on
      (truthiness, [len], [dict.get], string methods, exception classes);
    - [SDK]: what the OpenAI client takes and returns;
    - [App]: the functions of [app.py], in a state-and-exception monad with
      [try]/[except], whose state records the clock reads and the
      observable events, and Flask's dispatch to the views and the error
      handlers;
    - the properties of the error taxonomy, validation, request ids, token
      accounting and prompt assembly. *)

From Stdlib Require Import ZArith QArith List String Ascii Bool Lia.
From Stdlib Require Import Floats.SpecFloat Numbers.DecimalString.
Import ListNotations.

Set Warnings "-register-all".

Local Open Scope string_scope.
Local Open Scope Z_scope.

(* ===================================================================== *)
(** * Python values and runtime *)
(* ===================================================================== *)

Module Py.

(** The newline character written [\n] in the source's string literals. *)
Definition nl : string := String (ascii_of_nat 10) EmptyString.

(** ** Strings *)

(** [c.lower()] on one character.  Only the ASCII letters are mapped; the
    bytes of a UTF-8 encoded non-ASCII character are left as they are. *)
Definition lower_ascii (c : ascii) : ascii :=
  let n := nat_of_ascii c in
  if (Nat.leb 65 n && Nat.leb n 90)%bool then ascii_of_nat (n + 32) else c.

(** [s.lower()] *)
Fixpoint lower (s : string) : string :=
  match s with
  | EmptyString => EmptyString
  | String c s' => String (lower_ascii c) (lower s')
  end.

(** [needle in hay] on strings. *)
Fixpoint contains (needle hay : string) : bool :=
  match hay with
  | EmptyString => String.prefix needle EmptyString
  | String _ hay' => String.prefix needle hay || contains needle hay'
  end.

(** [s.replace(old, new)] for a non-empty [old]: occurrences are replaced
    from left to right and do not overlap.  [skip] counts the characters of
    a matched occurrence that are still to be dropped. *)
Fixpoint replace_from (old new : string) (skip : nat) (s : string) : string :=
  match s with
  | EmptyString => EmptyString
  | String c s' =>
      match skip with
      | S k => replace_from old new k s'
      | O =>
          if String.prefix old s
          then new ++ replace_from old new (Nat.pred (String.length old)) s'
          else String c (replace_from old new O s')
      end
  end.

Definition replace (old new s : string) : string := replace_from old new O s.

(** [str(n)] for an [int]. *)
Definition str_of_int (n : Z) : string := NilZero.string_of_int (Z.to_int n).

(** ** JSON values as Python objects

    [request.get_json()] yields [None], a [bool], an [int], a [float], a
    [str], a [list] or a [dict] with string keys.  A [dict] keeps its items
    in insertion order; it is an association list whose first binding of a
    key is the key's value. *)
Inductive value : Type :=
  | VNone
  | VBool (b : bool)
  | VInt (n : Z)
  | VFloat (f : spec_float)
  | VStr (s : string)
  | VList (l : list value)
  | VDict (d : list (string * value)).

Definition dict : Type := list (string * value).

(** Truth value testing, as [if x:] and [not x] use it. *)
Definition truthy (v : value) : bool :=
  match v with
  | VNone => false
  | VBool b => b
  | VInt n => negb (n =? 0)
  | VFloat (S754_zero _) => false
  | VFloat _ => true
  | VStr s => negb (s =? "")%string
  | VList l => match l with [] => false | _ :: _ => true end
  | VDict d => match d with [] => false | _ :: _ => true end
  end.

(** [d[k]] lookup, [None] when the key is missing. *)
Fixpoint lookup (k : string) (d : dict) : option value :=
  match d with
  | [] => None
  | (k', v) :: d' => if (k =? k')%string then Some v else lookup k d'
  end.

(** [d.get(k, default)] *)
Definition get (d : dict) (k : string) (default : value) : value :=
  match lookup k d with
  | Some v => v
  | None => default
  end.

(** [d[k] = v]: overwrite in place, or append a new item. *)
Fixpoint setitem (k : string) (v : value) (d : dict) : dict :=
  match d with
  | [] => [(k, v)]
  | (k', v') :: d' =>
      if (k =? k')%string then (k, v) :: d' else (k', v') :: setitem k v d'
  end.

(** ** Exceptions

    The classes that can reach the bridge: Python's own, werkzeug's HTTP
    exceptions raised by [request.get_json()], and the OpenAI SDK's.
    [parent] is the base class; [Exception] is the root. *)
Inductive exn_class : Type :=
  | Exception
  | AttributeError | TypeError | IndexError | ValueError
  | HTTPException | BadRequest | RequestEntityTooLarge
  | OpenAIError | APIError
  | APIResponseValidationError | APIStatusError | APIConnectionError
  | APITimeoutError
  | BadRequestError | AuthenticationError | PermissionDeniedError
  | NotFoundError | ConflictError | UnprocessableEntityError
  | RateLimitError | InternalServerError.

Definition parent (c : exn_class) : option exn_class :=
  match c with
  | Exception => None
  | AttributeError | TypeError | IndexError | ValueError => Some Exception
  | HTTPException => Some Exception
  | BadRequest | RequestEntityTooLarge => Some HTTPException
  | OpenAIError => Some Exception
  | APIError => Some OpenAIError
  | APIResponseValidationError | APIStatusError | APIConnectionError =>
      Some APIError
  | APITimeoutError => Some APIConnectionError
  | BadRequestError | AuthenticationError | PermissionDeniedError
  | NotFoundError | ConflictError | UnprocessableEntityError
  | RateLimitError | InternalServerError => Some APIStatusError
  end.

Definition exn_class_eqb (a b : exn_class) : bool :=
  match a, b with
  | Exception, Exception
  | AttributeError, AttributeError | TypeError, TypeError
  | IndexError, IndexError | ValueError, ValueError
  | HTTPException, HTTPException | BadRequest, BadRequest
  | RequestEntityTooLarge, RequestEntityTooLarge
  | OpenAIError, OpenAIError | APIError, APIError
  | APIResponseValidationError, APIResponseValidationError
  | APIStatusError, APIStatusError
  | APIConnectionError, APIConnectionError
  | APITimeoutError, APITimeoutError
  | BadRequestError, BadRequestError
  | AuthenticationError, AuthenticationError
  | PermissionDeniedError, PermissionDeniedError
  | NotFoundError, NotFoundError | ConflictError, ConflictError
  | UnprocessableEntityError, UnprocessableEntityError
  | RateLimitError, RateLimitError
  | InternalServerError, InternalServerError => true
  | _, _ => false
  end.

(** The method resolution order of a class: itself, then its bases.  The
    hierarchy is five classes deep at most. *)
Fixpoint mro_fuel (fuel : nat) (c : exn_class) : list exn_class :=
  match fuel with
  | O => [c]
  | S fuel' =>
      match parent c with
      | Some p => c :: mro_fuel fuel' p
      | None => [c]
      end
  end.

Definition mro (c : exn_class) : list exn_class := mro_fuel 5 c.

(** [issubclass(c, d)] *)
Definition issubclass (c d : exn_class) : bool :=
  existsb (exn_class_eqb d) (mro c).

(** The HTTP status code a werkzeug exception class carries. *)
Definition http_code (c : exn_class) : option Z :=
  match c with
  | BadRequest => Some 400
  | RequestEntityTooLarge => Some 413
  | _ => None
  end.

(** A raised exception: its class, [str(e)], and, for a failure that came
    with an HTTP response, the value of that response's [Retry-After]
    header when it has one.  The header is the provider's retry hint; the
    SDK keeps it in [e.response.headers]. *)
Record exn : Type := mkExn {
  exn_cls : exn_class;
  exn_str : string;
  exn_retry_after_header : option string }.

Definition isinstance (e : exn) (c : exn_class) : bool :=
  issubclass (exn_cls e) c.

(** An exception raised by the interpreter itself. *)
Definition builtin_exn (c : exn_class) (msg : string) : exn :=
  mkExn c msg None.

(** The instance attributes of an exception that hold a JSON value, by
    name.  An SDK [APIError] stores its message as [e.message]; the HTTP
    response and its headers hang off [e.response].  No class of the
    hierarchy defines an attribute [retry_after] and no constructor sets
    one. *)
Definition exn_attributes (e : exn) : dict :=
  if issubclass (exn_cls e) APIError
  then [("message", VStr (exn_str e))]
  else [].

(** [getattr(e, name, default)] *)
Definition getattr (e : exn) (name : string) (default : value) : value :=
  get (exn_attributes e) name default.

(** [getattr(e, "retry_after", default)] *)
Definition getattr_retry_after (e : exn) (default : value) : value :=
  getattr e "retry_after" default.

(** The outcome of evaluating something that may raise. *)
Inductive result (A : Type) : Type :=
  | Ok (a : A)
  | Raise (e : exn).
Arguments Ok {A} a.
Arguments Raise {A} e.

(** [len(v)]: defined on strings, lists and dicts; a [TypeError] on the
    other values.  (The length of a string is counted in bytes here; the
    views only put it in a log line.) *)
Definition len (v : value) : result Z :=
  match v with
  | VStr s => Ok (Z.of_nat (String.length s))
  | VList l => Ok (Z.of_nat (List.length l))
  | VDict d => Ok (Z.of_nat (List.length d))
  | _ => Raise (builtin_exn TypeError "object has no len()")
  end.

(** [int(x)] for a clock reading: truncation towards zero. *)
Definition int_of_Q (x : Q) : Z := Z.quot (Qnum x) (Z.pos (Qden x)).

End Py.

(* ===================================================================== *)
(** * The OpenAI client *)
(* ===================================================================== *)

Module SDK.
Import Py.

(** Keyword arguments of [client.responses.create]. *)
Record responses_args : Type := mkResponsesArgs {
  ra_model : value;
  ra_input : string;
  ra_max_output_tokens : value }.

(** Keyword arguments of [client.chat.completions.create]. *)
Record chat_args : Type := mkChatArgs {
  ca_model : value;
  ca_messages : value;
  ca_max_tokens : value }.

(** [response.usage], when the provider reports it. *)
Record usage : Type := mkUsage { total_tokens : Z }.

(** What [client.responses.create] returns.  The SDK's result objects
    always have a [usage] attribute; it is [None] when the provider sent
    no usage metadata. *)
Record response : Type := mkResponse {
  output_text : string;
  r_usage : option usage }.

(** One element of [response.choices]; [message.content] may be [None]. *)
Record choice : Type := mkChoice {
  message_content : option string;
  finish_reason : string }.

(** What [client.chat.completions.create] returns. *)
Record chat_completion : Type := mkChatCompletion {
  choices : list choice;
  c_usage : option usage }.

End SDK.

(* ===================================================================== *)
(** * The bridge application *)
(* ===================================================================== *)

Module App.
Import Py SDK.

(** ** What a request handler can observe and do *)

Inductive level : Type := INFO | WARNING | ERROR.

(** The effects of a handler, in the order they happen: reading the request
    body, writing a log record (the text of the record is not modelled),
    and calling the provider, with the outcome of the call. *)
Inductive event : Type :=
  | EvGetJson
  | EvLog (l : level)
  | EvResponsesCreate (a : responses_args) (o : result response)
  | EvChatCreate (a : chat_args) (o : result chat_completion).

(** Everything outside the bridge that a handler consults.
    - [time_time n] is what the [n]-th call of [time.time()] returns while
      the request is handled.  Readings are finite floats, taken as the
      rationals they denote.
    - [elapsed_ms t start] is [int((t - start) * 1000)] as Python evaluates
      it on two clock readings: a subtraction and a multiplication of
      doubles, each rounded, and a truncation.  Double arithmetic is not
      modelled; the world supplies its result.
    - [utcnow_isoformat] is [datetime.now(timezone.utc).isoformat()] at the
      moment the response is built.
    - [responses_create] and [chat_completions_create] are the provider:
      given the arguments of the call they return a result or raise.
    - [repr] is [str(v)] for the values whose rendering is not spelled out
      in [str] below (floats, lists and dicts). *)
Record world : Type := mkWorld {
  time_time : nat -> Q;
  elapsed_ms : Q -> Q -> Z;
  utcnow_isoformat : string;
  responses_create : responses_args -> result response;
  chat_completions_create : chat_args -> result chat_completion;
  repr : value -> string }.

(** The state threaded through a handler: how often the clock was read,
    and the events so far, oldest first. *)
Record state : Type := mkState {
  ticks : nat;
  events : list event }.

Definition init : state := mkState O [].

(** Computations that read and extend the state and either return a value
    or raise a Python exception.  The state survives a raise, as the
    effects of a Python [try] block survive its exception. *)
Definition M (A : Type) : Type := state -> result A * state.

Definition ret {A} (a : A) : M A := fun s => (Ok a, s).

Definition raise {A} (e : exn) : M A := fun s => (Raise e, s).

Definition bind {A B} (m : M A) (k : A -> M B) : M B :=
  fun s =>
    match m s with
    | (Ok a, s') => k a s'
    | (Raise e, s') => (Raise e, s')
    end.

Declare Scope py_scope.
Delimit Scope py_scope with py.
Notation "x <- m ;; k" := (bind m (fun x => k))
  (at level 100, m at next level, right associativity) : py_scope.
Notation "m ;; k" := (bind m (fun _ => k))
  (at level 100, right associativity) : py_scope.
Local Open Scope py_scope.

(** Lift the outcome of a pure evaluation. *)
Definition lift {A} (r : result A) : M A := fun s => (r, s).

(** [try: body  except C1 as e: h1  except C2 as e: h2 ...]: the first
    clause whose class the exception is an instance of handles it; with no
    such clause the exception propagates. *)
Definition try_except {A} (body : M A)
    (clauses : list (exn_class * (exn -> M A))) : M A :=
  fun s =>
    match body s with
    | (Ok a, s') => (Ok a, s')
    | (Raise e, s') =>
        match find (fun cl => isinstance e (fst cl)) clauses with
        | Some cl => snd cl e s'
        | None => (Raise e, s')
        end
    end.

Definition emit (ev : event) : M unit :=
  fun s => (Ok tt, mkState (ticks s) (events s ++ [ev])).

(** [logger.info], [logger.warning], [logger.error], [logger.exception] *)
Definition log (l : level) : M unit := emit (EvLog l).

(** [time.time()] *)
Definition now (w : world) : M Q :=
  fun s => (Ok (time_time w (ticks s)), mkState (S (ticks s)) (events s)).

(** [client.responses.create(...)] *)
Definition call_responses_create (w : world) (a : responses_args)
  : M response :=
  emit (EvResponsesCreate a (responses_create w a)) ;;
  lift (responses_create w a).

(** [client.chat.completions.create(...)] *)
Definition call_chat_completions_create (w : world) (a : chat_args)
  : M chat_completion :=
  emit (EvChatCreate a (chat_completions_create w a)) ;;
  lift (chat_completions_create w a).

(** [str(v)], which is also what [{v}] in an f-string renders. *)
Definition str (w : world) (v : value) : string :=
  match v with
  | VStr s => s
  | VInt n => str_of_int n
  | VNone => "None"
  | VBool true => "True"
  | VBool false => "False"
  | _ => repr w v
  end.

(** ** The Flask request

    [is_json] is Flask's [request.is_json]: the Content-Type of the request
    names JSON.  [payload] is what the body turns out to be when
    [request.get_json()] reads it: a parsed value, bytes that are not JSON
    ([BadRequest]), or more bytes than [MAX_CONTENT_LENGTH] allows
    ([RequestEntityTooLarge]). *)
Inductive body : Type :=
  | Parsed (v : value)
  | Malformed
  | TooLarge.

Record request : Type := mkRequest {
  is_json : bool;
  payload : body }.

(** [request.get_json()] *)
Definition get_json (req : request) : M value :=
  emit EvGetJson ;;
  match payload req with
  | Parsed v => ret v
  | Malformed =>
      raise (builtin_exn BadRequest "400 Bad Request: Failed to decode JSON object")
  | TooLarge =>
      raise (builtin_exn RequestEntityTooLarge "413 Request Entity Too Large")
  end.

(** Evaluating the attribute [data.get]: only a [dict] has it. *)
Definition attr_get (data : value) : M dict :=
  match data with
  | VDict d => ret d
  | _ => raise (builtin_exn AttributeError "object has no attribute 'get'")
  end.

(** What a view returns: the [jsonify]-ed mapping and the HTTP status. *)
Record http_response : Type := mkHttp {
  json : dict;
  status : Z }.

(** ** [app.py] *)

(** [get_timestamp()] *)
Definition get_timestamp (w : world) : M string :=
  ret (replace "+00:00" "Z" (utcnow_isoformat w)).

(** [create_error_response(request_id, error_code, message,
    recoverable=False, details=None, http_status=500)].  Call sites that
    leave a keyword out pass its default here. *)
Definition create_error_response (w : world) (request_id : value)
    (error_code message : string) (recoverable : bool) (details : value)
    (http_status : Z) : M http_response :=
  ts <- get_timestamp w ;;
  let response :=
    [ ("request_id", request_id);
      ("success", VBool false);
      ("error_code", VStr error_code);
      ("error_message", VStr message);
      ("recoverable", VBool recoverable);
      ("timestamp", VStr ts) ] in
  let response :=
    if truthy details then setitem "details" details response else response in
  ret (mkHttp response http_status).

(** [validate_request(f)] *)
Definition validate_request (f : world -> request -> M http_response)
  : world -> request -> M http_response :=
  fun w req =>
    if negb (is_json req) then
      create_error_response w (VStr "unknown") "VALIDATION_ERROR"
        "Request must be JSON" false VNone 400
    else f w req.

(** [os.getenv(name)] against the process environment [env]: the value of
    the variable, or [None] when it is not set. *)
Definition os_getenv (env : string -> option string) (name : string) : value :=
  match env name with
  | Some s => VStr s
  | None => VNone
  end.

(** The view function of [/health].  The route takes GET requests and is
    not decorated: the request is not looked at. *)
Definition health (env : string -> option string) (w : world)
  : M http_response :=
  let api_key_configured := truthy (os_getenv env "OPENAI_API_KEY") in
  ts <- get_timestamp w ;;
  ret (mkHttp
         [ ("status", VStr "healthy");
           ("version", VStr "1.0.0");
           ("openai_configured", VBool api_key_configured);
           ("timestamp", VStr ts) ]
         200).

(** The [except] clauses of [analyze], in source order. *)
Definition analyze_except (w : world) (request_id : value)
  : list (exn_class * (exn -> M http_response)) :=
  [ (AuthenticationError, fun e =>
       log ERROR ;;
       create_error_response w request_id "AUTH_ERROR"
         "Invalid OpenAI API key" false VNone 401);
    (RateLimitError, fun e =>
       let retry_after := getattr_retry_after e (VInt 60) in
       log WARNING ;;
       create_error_response w request_id "RATE_LIMIT"
         ("Rate limit exceeded. Retry after " ++ str w retry_after
            ++ " seconds.")
         true (VDict [("retry_after_seconds", retry_after)]) 429);
    (APITimeoutError, fun e =>
       log ERROR ;;
       create_error_response w request_id "TIMEOUT"
         "Request timed out. Try again with a shorter input." true VNone 504);
    (APIError, fun e =>
       let error_message := exn_str e in
       if contains "context_length" (lower error_message)
          || contains "maximum" (lower error_message)
       then
         log ERROR ;;
         create_error_response w request_id "CONTEXT_LENGTH"
           "Content too large for model. Please reduce the source content size."
           false VNone 400
       else
         log ERROR ;;
         create_error_response w request_id "SERVER_ERROR"
           ("OpenAI API error: " ++ error_message) true VNone 502);
    (Exception, fun e =>
       log ERROR ;;
       create_error_response w request_id "BRIDGE_ERROR"
         ("Internal bridge error: " ++ exn_str e) false VNone 500) ].

(** The view function of [/analyze], before decoration. *)
Definition analyze (w : world) (req : request) : M http_response :=
  start_time <- now w ;;
  data <- get_json req ;;
  (* Extract fields *)
  d <- attr_get data ;;
  t <- now w ;;
  let request_id :=
    get d "request_id" (VStr ("auto-" ++ str_of_int (int_of_Q t))) in
  let query := get d "query" (VStr "") in
  let sources := get d "sources" (VStr "") in
  let model := get d "model" (VStr "gpt-5-nano") in
  let max_tokens := get d "max_tokens" (VInt 4096) in
  (* Validate required fields *)
  if negb (truthy query) && negb (truthy sources) then
    log WARNING ;;
    create_error_response w request_id "VALIDATION_ERROR"
      "At least one of 'query' or 'sources' is required" false VNone 400
  else
    (* Build the input prompt *)
    let input_text := "" in
    let input_text :=
      if truthy query
      then input_text ++ "Research Query: " ++ str w query ++ nl ++ nl
      else input_text in
    let input_text :=
      if truthy sources
      then input_text ++ "Source Content:" ++ nl ++ str w sources ++ nl ++ nl
      else input_text in
    let input_text :=
      input_text ++
      "Please analyze the above content and provide a comprehensive research summary." in
    log INFO ;;
    try_except
      (response <- call_responses_create w
                     (mkResponsesArgs model input_text max_tokens) ;;
       let analysis := output_text response in
       let tokens_used :=
         match r_usage response with
         | Some u => total_tokens u
         | None => 0
         end in
       t_end <- now w ;;
       let processing_time_ms := elapsed_ms w t_end start_time in
       log INFO ;;
       ts <- get_timestamp w ;;
       ret (mkHttp
              [ ("request_id", request_id);
                ("success", VBool true);
                ("analysis", VStr analysis);
                ("tokens_used", VInt tokens_used);
                ("processing_time_ms", VInt processing_time_ms);
                ("timestamp", VStr ts) ]
              200))
      (analyze_except w request_id).

(** [xs[0]] *)
Definition first_item {A} (xs : list A) : M A :=
  match xs with
  | x :: _ => ret x
  | [] => raise (builtin_exn IndexError "list index out of range")
  end.

(** The [except] clauses of [chat], in source order. *)
Definition chat_except (w : world) (request_id : value)
  : list (exn_class * (exn -> M http_response)) :=
  [ (AuthenticationError, fun e =>
       log ERROR ;;
       create_error_response w request_id "AUTH_ERROR"
         "Invalid OpenAI API key" false VNone 401);
    (RateLimitError, fun e =>
       let retry_after := getattr_retry_after e (VInt 60) in
       log WARNING ;;
       create_error_response w request_id "RATE_LIMIT"
         ("Rate limit exceeded. Retry after " ++ str w retry_after
            ++ " seconds.")
         true (VDict [("retry_after_seconds", retry_after)]) 429);
    (APITimeoutError, fun e =>
       log ERROR ;;
       create_error_response w request_id "TIMEOUT"
         "Request timed out. Try again with a shorter input." true VNone 504);
    (APIError, fun e =>
       log ERROR ;;
       create_error_response w request_id "SERVER_ERROR"
         ("OpenAI API error: " ++ exn_str e) true VNone 502);
    (Exception, fun e =>
       log ERROR ;;
       create_error_response w request_id "BRIDGE_ERROR"
         ("Internal bridge error: " ++ exn_str e) false VNone 500) ].

(** The view function of [/chat], before decoration. *)
Definition chat (w : world) (req : request) : M http_response :=
  start_time <- now w ;;
  data <- get_json req ;;
  d <- attr_get data ;;
  t <- now w ;;
  let request_id :=
    get d "request_id" (VStr ("auto-" ++ str_of_int (int_of_Q t))) in
  let model := get d "model" (VStr "gpt-5-nano") in
  let messages := get d "messages" (VList []) in
  let max_tokens := get d "max_tokens" (VInt 4096) in
  if negb (truthy messages) then
    create_error_response w request_id "VALIDATION_ERROR"
      "'messages' array is required" false VNone 400
  else
    (* the log record renders [len(messages)] *)
    _ <- lift (len messages) ;;
    log INFO ;;
    try_except
      (response <- call_chat_completions_create w
                     (mkChatArgs model messages max_tokens) ;;
       c0 <- first_item (choices response) ;;
       let content :=
         match message_content c0 with
         | Some s => VStr s
         | None => VNone
         end in
       let tokens_used :=
         match c_usage response with
         | Some u => total_tokens u
         | None => 0
         end in
       c0' <- first_item (choices response) ;;
       let finish := finish_reason c0' in
       t_end <- now w ;;
       let processing_time_ms := elapsed_ms w t_end start_time in
       log INFO ;;
       ts <- get_timestamp w ;;
       ret (mkHttp
              [ ("request_id", request_id);
                ("success", VBool true);
                ("content", content);
                ("tokens_used", VInt tokens_used);
                ("finish_reason", VStr finish);
                ("processing_time_ms", VInt processing_time_ms);
                ("timestamp", VStr ts) ]
              200))
      (chat_except w request_id).

(** [@app.errorhandler(413)] *)
Definition request_entity_too_large (w : world) (error : exn)
  : M http_response :=
  create_error_response w (VStr "unknown") "PAYLOAD_TOO_LARGE"
    "Request body exceeds maximum allowed size (50MB)" false VNone 413.

(** [@app.errorhandler(Exception)] *)
Definition handle_exception (w : world) (e : exn) : M http_response :=
  log ERROR ;;
  create_error_response w (VStr "unknown") "INTERNAL_ERROR"
    "An unexpected error occurred" false VNone 500.

(** ** Flask's dispatch *)

Inductive route : Type := Analyze | Chat.

(** [@app.route(...)] over [@validate_request]. *)
Definition view_function (r : route) : world -> request -> M http_response :=
  match r with
  | Analyze => validate_request analyze
  | Chat => validate_request chat
  end.

(** The error handlers registered on the application: under a status code
    and an exception class for [errorhandler(413)], under a class alone for
    [errorhandler(Exception)]. *)
Definition error_handler_spec
  : list (option Z * exn_class * (world -> exn -> M http_response)) :=
  [ (Some 413, RequestEntityTooLarge, request_entity_too_large);
    (None, Exception, handle_exception) ].

Definition code_eqb (a b : option Z) : bool :=
  match a, b with
  | Some x, Some y => x =? y
  | None, None => true
  | _, _ => false
  end.

(** The handler registered under [code] for the first class of [classes]
    that has one. *)
Fixpoint handler_for (code : option Z) (classes : list exn_class)
  : option (world -> exn -> M http_response) :=
  match classes with
  | [] => None
  | cls :: rest =>
      match find (fun h => code_eqb (fst (fst h)) code
                           && exn_class_eqb (snd (fst h)) cls)
                 error_handler_spec with
      | Some h => Some (snd h)
      | None => handler_for code rest
      end
  end.

(** Flask's handler lookup: the handlers for the exception's status code
    first, then the handlers registered by class, each along the
    exception's method resolution order. *)
Definition find_error_handler (e : exn)
  : option (world -> exn -> M http_response) :=
  let by_class := handler_for None (mro (exn_cls e)) in
  match http_code (exn_cls e) with
  | Some c =>
      match handler_for (Some c) (mro (exn_cls e)) with
      | Some h => Some h
      | None => by_class
      end
  | None => by_class
  end.

(** Run the view; an exception that leaves it goes to the registered
    handler.  An exception with no handler would be left to Flask. *)
Definition full_dispatch_request (w : world) (r : route) (req : request)
  : M http_response :=
  fun s =>
    match view_function r w req s with
    | (Ok resp, s') => (Ok resp, s')
    | (Raise e, s') =>
        match find_error_handler e with
        | Some h => h w e s'
        | None => (Raise e, s')
        end
    end.

(** One request, from a fresh state. *)
Definition serve (w : world) (r : route) (req : request)
  : result http_response * state :=
  full_dispatch_request w r req init.

(** The provider calls among the events of a run. *)
Definition is_call (ev : event) : bool :=
  match ev with
  | EvResponsesCreate _ _ | EvChatCreate _ _ => true
  | _ => false
  end.

Definition external_calls (s : state) : list event :=
  filter is_call (events s).

End App.

(* ===================================================================== *)
(** * Reading a run *)
(* ===================================================================== *)

Import Py SDK App.

(** A field of the JSON envelope of a response. *)
Definition field (k : string) (resp : http_response) : option value :=
  lookup k (json resp).

(** The response and the final state of a run. *)
Definition response_of (run : result http_response * state)
  : option http_response :=
  match fst run with
  | Ok resp => Some resp
  | Raise _ => None
  end.

Definition state_of (run : result http_response * state) : state := snd run.

(** The provider raised [e] during the run. *)
Definition provider_raised (st : state) (e : exn) : Prop :=
  (exists a, In (EvResponsesCreate a (Raise e)) (events st))
  \/ (exists a, In (EvChatCreate a (Raise e)) (events st)).

(** What the provider returned, on either call shape. *)
Inductive provider_result : Type :=
  | FromResponses (res : response)
  | FromChat (res : chat_completion).

Definition provider_returned (st : state) (pr : provider_result) : Prop :=
  match pr with
  | FromResponses res => exists a, In (EvResponsesCreate a (Ok res)) (events st)
  | FromChat res => exists a, In (EvChatCreate a (Ok res)) (events st)
  end.

Definition reported_usage (pr : provider_result) : option usage :=
  match pr with
  | FromResponses res => r_usage res
  | FromChat res => c_usage res
  end.

(** A chat completion has a first choice to take the content from. *)
Definition has_choice (pr : provider_result) : bool :=
  match pr with
  | FromResponses _ => true
  | FromChat res => match choices res with [] => false | _ :: _ => true end
  end.

(** [v] is a non-empty string. *)
Definition nonempty_str (v : value) : bool :=
  match v with
  | VStr s => negb (s =? "")%string
  | _ => false
  end.

(** [v] is a non-empty JSON array. *)
Definition nonempty_list (v : value) : bool :=
  match v with
  | VList (_ :: _) => true
  | _ => false
  end.

(** [len(v)] is defined. *)
Definition sized (v : value) : bool :=
  match len v with
  | Ok _ => true
  | Raise _ => false
  end.

(** A request whose Content-Type is JSON and whose body parses to the
    JSON object [d]. *)
Definition json_request (d : dict) : request := mkRequest true (Parsed (VDict d)).

(** [details.retry_after_seconds] of an envelope. *)
Definition retry_after_seconds (resp : http_response) : option value :=
  match field "details" resp with
  | Some (VDict dd) => lookup "retry_after_seconds" dd
  | _ => None
  end.

(** A provider failure that none of the three specific clauses takes. *)
Definition generic_api_error (e : exn) : bool :=
  isinstance e APIError
  && negb (isinstance e AuthenticationError)
  && negb (isinstance e RateLimitError)
  && negb (isinstance e APITimeoutError).

(** The error envelope of the data model: the six fields, and [details]
    only under [RATE_LIMIT]. *)
Definition error_envelope (resp : http_response) : Prop :=
  field "success" resp = Some (VBool false)
  /\ (exists rid, field "request_id" resp = Some rid)
  /\ (exists code, field "error_code" resp = Some (VStr code))
  /\ (exists msg, field "error_message" resp = Some (VStr msg))
  /\ (exists b, field "recoverable" resp = Some (VBool b))
  /\ (exists ts, field "timestamp" resp = Some (VStr ts))
  /\ (field "details" resp <> None ->
      field "error_code" resp = Some (VStr "RATE_LIMIT")).

(** The text a field of the request gives to the prompt: nothing when the
    field is missing or empty (falsy), its rendering otherwise.  A string
    that is not empty gives itself. *)
Definition section_text (w : world) (v : value) : option string :=
  if truthy v then Some (str w v) else None.

(** The analyze prompt as the specification words it: the labelled query
    section if there is a query, the labelled source section if there are
    sources, and the closing instruction, in this order. *)
Definition query_section (q : option string) : list string :=
  match q with
  | Some text => ["Research Query: " ++ text ++ nl ++ nl]
  | None => []
  end.

Definition sources_section (s : option string) : list string :=
  match s with
  | Some text => ["Source Content:" ++ nl ++ text ++ nl ++ nl]
  | None => []
  end.

Definition closing_instruction : string :=
  "Please analyze the above content and provide a comprehensive research summary.".

Definition prompt_spec (q s : option string) : string :=
  String.concat ""
    (query_section q ++ sources_section s ++ [closing_instruction]).

(** ** Concrete requests and worlds *)

(** A clock that starts at a fixed second and advances a quarter of a
    second per reading. *)
Definition clock0 (n : nat) : Q := (1700000000 # 1) + (Z.of_nat n # 4).

Definition ok_response : response :=
  mkResponse "AI is..." (Some (mkUsage 42)).

Definition ok_completion : chat_completion :=
  mkChatCompletion [mkChoice (Some "Hello!") "stop"] (Some (mkUsage 25)).

(** A world whose provider answers every call with the given outcomes.
    On the readings of [clock0] double arithmetic is exact, so the elapsed
    milliseconds are the exact ones. *)
Definition world_of (rc : result response) (cc : result chat_completion)
  : world :=
  mkWorld clock0 (fun t start => int_of_Q ((t - start) * 1000)%Q)
    "2025-01-15T10:30:00.123456+00:00"
    (fun _ => rc) (fun _ => cc) (fun _ => "<object>").

Definition world_ok : world := world_of (Ok ok_response) (Ok ok_completion).

Definition world_failing (e : exn) : world := world_of (Raise e) (Raise e).

Definition hello_messages : value :=
  VList [VDict [("role", VStr "user"); ("content", VStr "Hello!")]].

Definition context_error : exn :=
  mkExn BadRequestError
    "Error code: 400 - This model's maximum context length is 8192 tokens."
    None.

Definition timeout_error : exn :=
  mkExn APITimeoutError "Request timed out." None.

(** The failure the SDK raises for a 429 response whose [Retry-After]
    header is [hint]. *)
Definition rate_limit_error (hint : option string) : exn :=
  mkExn RateLimitError "Error code: 429 - Rate limit exceeded" hint.

(** ** The error taxonomy and the shape of a run *)

(** The rows the handlers can produce: [error_code], HTTP status,
    [recoverable]. *)
Definition taxonomy : list (string * Z * bool) :=
  [ ("VALIDATION_ERROR", 400, false);
    ("AUTH_ERROR", 401, false);
    ("RATE_LIMIT", 429, true);
    ("TIMEOUT", 504, true);
    ("CONTEXT_LENGTH", 400, false);
    ("SERVER_ERROR", 502, true);
    ("BRIDGE_ERROR", 500, false);
    ("PAYLOAD_TOO_LARGE", 413, false);
    ("INTERNAL_ERROR", 500, false) ].

(** The provider call that belongs to a route. *)
Definition call_of_route (r : route) (ev : event) : bool :=
  match r, ev with
  | Analyze, EvResponsesCreate _ _ => true
  | Chat, EvChatCreate _ _ => true
  | _, _ => false
  end.

(** The arguments of a provider call are the fields of the request object
    [d], or the defaults of the handlers. *)
Definition call_arguments_from (d : dict) (ev : event) : Prop :=
  match ev with
  | EvResponsesCreate a _ =>
      ra_model a = get d "model" (VStr "gpt-5-nano")
      /\ ra_max_output_tokens a = get d "max_tokens" (VInt 4096)
  | EvChatCreate a _ =>
      ca_model a = get d "model" (VStr "gpt-5-nano")
      /\ ca_max_tokens a = get d "max_tokens" (VInt 4096)
      /\ ca_messages a = get d "messages" (VList [])
  | _ => True
  end.

(** [v] is a JSON object. *)
Definition is_dict (v : value) : bool :=
  match v with
  | VDict _ => true
  | _ => false
  end.

(** The string has no plus sign. *)
Fixpoint plus_free (s : string) : bool :=
  match s with
  | EmptyString => true
  | String c s' => negb (Ascii.eqb c "+") && plus_free s'
  end.

(** [content] as the chat envelope renders a choice's message. *)
Definition content_of (c : choice) : value :=
  match message_content c with
  | Some s => VStr s
  | None => VNone
  end.

Arguments str_of_int : simpl never.
Arguments int_of_Q : simpl never.
Arguments replace : simpl never.
Arguments contains : simpl never.
Arguments lower : simpl never.
Arguments str : simpl never.
Arguments String.append : simpl never.
Arguments get : simpl never.
Arguments isinstance : simpl never.
Arguments getattr_retry_after : simpl never.

(** ** Dictionaries *)

Lemma lookup_setitem_same (k : string) (v : value) (d : dict) :
  lookup k (setitem k v d) = Some v.
Proof.
  induction d as [| [k' v'] d IH]; cbn.
  - now rewrite String.eqb_refl.
  - destruct (k =? k')%string eqn:E; cbn.
    + now rewrite String.eqb_refl.
    + now rewrite E.
Qed.

Lemma lookup_setitem_other (k k' : string) (v : value) (d : dict) :
  k <> k' -> lookup k' (setitem k v d) = lookup k' d.
Proof.
  intros Hne. induction d as [| [k0 v0] d IH]; cbn.
  - destruct (k' =? k)%string eqn:E; auto.
    apply String.eqb_eq in E. congruence.
  - destruct (k =? k0)%string eqn:E; cbn.
    + apply String.eqb_eq in E. subst k0.
      destruct (k' =? k)%string eqn:E'; auto.
      apply String.eqb_eq in E'. congruence.
    + now rewrite IH.
Qed.

Lemma get_lookup (d : dict) (k : string) (dv : value) :
  get d k dv = match lookup k d with Some v => v | None => dv end.
Proof. reflexivity. Qed.

(** ** The exception hierarchy *)

Lemma exn_class_eqb_refl (c : exn_class) : exn_class_eqb c c = true.
Proof. destruct c; reflexivity. Qed.

Lemma issubclass_refl (c : exn_class) : issubclass c c = true.
Proof. destruct c; reflexivity. Qed.

(** Every class derives from [Exception], so the last [except] clause of a
    view, and the application's [Exception] handler, take anything. *)
Lemma issubclass_Exception (c : exn_class) : issubclass c Exception = true.
Proof. destruct c; reflexivity. Qed.

(** The three specific SDK failures are API errors too: the order of the
    [except] clauses decides that they are not classified as generic. *)
Lemma specific_failures_are_api_errors :
  issubclass AuthenticationError APIError = true
  /\ issubclass RateLimitError APIError = true
  /\ issubclass APITimeoutError APIError = true.
Proof. repeat split; reflexivity. Qed.

(** Flask finds a handler for whatever leaves a view. *)
Lemma find_error_handler_total (e : exn) : find_error_handler e <> None.
Proof. destruct e as [[] m ra]; cbn; discriminate. Qed.

(** ** Symbolic execution of [serve] *)

Ltac unfold_serve_in H :=
  unfold serve, full_dispatch_request, view_function, validate_request,
    analyze, chat, try_except, call_responses_create,
    call_chat_completions_create, json_request in H.

(** One case split on what the run in [H] depends on next: the kind of
    value [messages] is, the truth of a field, the provider's answer, the
    first [except] clause that takes the failure, the substring test. *)
Ltac split_next_in H :=
  match type of H with
  | context [isinstance (builtin_exn ?c ?m) ?c'] =>
      change (isinstance (builtin_exn c m) c') with (issubclass c c') in H
  | context [isinstance ?e Exception] =>
      change (isinstance e Exception) with (issubclass (exn_cls e) Exception)
        in H;
      rewrite (issubclass_Exception (exn_cls e)) in H
  | context [get ?d "messages" ?dv] =>
      let E := fresh "Hmsg" in
      destruct (get d "messages" dv)
        as [ | [|] | [| |] | [| | |] | [|] | [|] | [|] ] eqn:E
  | context [truthy ?v] =>
      let E := fresh "Htruthy" in destruct (truthy v) eqn:E
  | context [responses_create ?w ?a] =>
      let E := fresh "Hprov" in destruct (responses_create w a) eqn:E
  | context [chat_completions_create ?w ?a] =>
      let E := fresh "Hprov" in destruct (chat_completions_create w a) eqn:E
  | context [first_item (choices ?res)] =>
      let E := fresh "Hchoices" in destruct (choices res) eqn:E
  | context [isinstance ?e ?c] =>
      let E := fresh "Hclass" in destruct (isinstance e c) eqn:E
  | context [(contains ?a ?b || contains ?c ?d)%bool] =>
      let E := fresh "Hctx" in
      destruct (contains a b || contains c d)%bool eqn:E
  end; cbn in H.

Ltac run_in H :=
  unfold_serve_in H; cbn in H; repeat split_next_in H;
  unfold ret, raise in H; cbn in H.

(** Replace [serve w r req] by the response and state it computes to, one
    goal per path through the decorator, the view and the handlers. *)
Ltac serve_cases w r req :=
  let run := fresh "run" in
  let Hrun := fresh "Hrun" in
  remember (serve w r req) as run eqn:Hrun in *;
  destruct req as [[|] [[ | | | | | | ] | | ]];
  run_in Hrun; subst run.

(** The same for a request whose body is the JSON object [d]. *)
Ltac serve_cases_json w r d :=
  let run := fresh "run" in
  let Hrun := fresh "Hrun" in
  remember (serve w r (json_request d)) as run eqn:Hrun in *;
  run_in Hrun; subst run.

(** Take the provider's failure out of the events of a run. *)
Ltac find_raised H :=
  unfold provider_raised, state_of in H; cbn in H;
  destruct H as [[? H] | [? H]];
  repeat (destruct H as [H | H]; try discriminate H);
  try contradiction;
  inversion H; subst; clear H.

(** Take the provider's result out of the events of a run. *)
Ltac find_returned H :=
  unfold provider_returned, state_of in H; cbn in H;
  destruct H as [? H];
  repeat (destruct H as [H | H]; try discriminate H);
  try contradiction;
  inversion H; subst; clear H.

(** ** The decorator *)

(** A request whose Content-Type is not JSON is answered by the decorator:
    the view does not run, the body is not read, nothing is logged and the
    provider is not called. *)
Lemma non_json_content_type_rejected (w : world) (r : route) (req : request) :
  is_json req = false ->
  serve w r req =
    (Ok (mkHttp
           [ ("request_id", VStr "unknown");
             ("success", VBool false);
             ("error_code", VStr "VALIDATION_ERROR");
             ("error_message", VStr "Request must be JSON");
             ("recoverable", VBool false);
             ("timestamp", VStr (replace "+00:00" "Z" (utcnow_isoformat w))) ]
           400),
     init).
Proof.
  intros H. destruct r; unfold serve, full_dispatch_request, view_function,
    validate_request; rewrite H; reflexivity.
Qed.

(** Every request gets a response: no exception is left to Flask. *)
Lemma serve_total (w : world) (r : route) (req : request) :
  exists resp st, serve w r req = (Ok resp, st).
Proof.
  destruct r; [serve_cases w Analyze req | serve_cases w Chat req]; eauto.
Qed.

(** ** Malformed bodies *)

(** C2, as the code has it: a request whose Content-Type is JSON and whose
    body does not parse passes the decorator; [request.get_json()] raises
    inside the view, outside any [try], and the application's [Exception]
    handler answers with status 500 and [INTERNAL_ERROR], not with 400 and
    [VALIDATION_ERROR]. *)
Theorem C2_malformed_json_body_is_internal_error (w : world) (r : route) :
  serve w r (mkRequest true Malformed) =
    (Ok (mkHttp
           [ ("request_id", VStr "unknown");
             ("success", VBool false);
             ("error_code", VStr "INTERNAL_ERROR");
             ("error_message", VStr "An unexpected error occurred");
             ("recoverable", VBool false);
             ("timestamp", VStr (replace "+00:00" "Z" (utcnow_isoformat w))) ]
           500),
     mkState 1 [EvGetJson; EvLog ERROR]).
Proof. destruct r; reflexivity. Qed.


(** ** Validation *)

Lemma nonempty_str_truthy (v : value) : nonempty_str v = true -> truthy v = true.
Proof. destruct v; cbn; congruence. Qed.

Lemma nonempty_list_truthy_sized (v : value) :
  nonempty_list v = true -> truthy v = true /\ sized v = true.
Proof. destruct v as [ | | | | | [|] | ]; cbn; intros H; auto; discriminate. Qed.

(** C4 fails: [query] is the number 5, so neither field is a non-empty
    string, yet validation passes and the provider is called.  And a body
    that parses to a JSON array has neither field; [data.get] raises and the
    answer is 500 with [INTERNAL_ERROR]. *)
Lemma C4_number_query_passes_validation :
  nonempty_str (get [("query", VInt 5)] "query" (VStr "")) = false
  /\ nonempty_str (get [("query", VInt 5)] "sources" (VStr "")) = false
  /\ (exists resp,
        response_of (serve world_ok Analyze (json_request [("query", VInt 5)]))
        = Some resp
        /\ status resp = 200
        /\ List.length (external_calls
                          (state_of (serve world_ok Analyze
                                       (json_request [("query", VInt 5)]))))
           = 1%nat)
  /\ (exists resp,
        response_of (serve world_ok Analyze (mkRequest true (Parsed (VList []))))
        = Some resp
        /\ status resp = 500
        /\ field "error_code" resp = Some (VStr "INTERNAL_ERROR")).
Proof.
  split; [reflexivity |]. split; [reflexivity |].
  split; eexists; repeat split; reflexivity.
Qed.

(** C4, amended: for a body that is a JSON object, when [query] and
    [sources] are both missing or falsy the response is 400 with
    [VALIDATION_ERROR] and the provider is not called; when one of them is
    truthy, and so whenever one of them is a non-empty string, validation
    passes: the provider is called once and the response is not a
    [VALIDATION_ERROR]. *)
Theorem C4_analyze_validation (w : world) (d : dict) :
  exists resp,
    response_of (serve w Analyze (json_request d)) = Some resp
    /\ (truthy (get d "query" (VStr "")) = false ->
        truthy (get d "sources" (VStr "")) = false ->
        status resp = 400
        /\ field "error_code" resp = Some (VStr "VALIDATION_ERROR")
        /\ external_calls (state_of (serve w Analyze (json_request d))) = [])
    /\ (truthy (get d "query" (VStr "")) = true
        \/ truthy (get d "sources" (VStr "")) = true ->
        field "error_code" resp <> Some (VStr "VALIDATION_ERROR")
        /\ List.length (external_calls
                     (state_of (serve w Analyze (json_request d)))) = 1%nat)
    /\ (nonempty_str (get d "query" (VStr "")) = true
        \/ nonempty_str (get d "sources" (VStr "")) = true ->
        field "error_code" resp <> Some (VStr "VALIDATION_ERROR")
        /\ List.length (external_calls
                     (state_of (serve w Analyze (json_request d)))) = 1%nat).
Proof.
  assert (Hstr : nonempty_str (get d "query" (VStr "")) = true
                 \/ nonempty_str (get d "sources" (VStr "")) = true ->
                 truthy (get d "query" (VStr "")) = true
                 \/ truthy (get d "sources" (VStr "")) = true).
  { intros [H | H]; [left | right]; now apply nonempty_str_truthy. }
  serve_cases_json w Analyze d.
  all: eexists; split; [reflexivity |].
  all: unfold field; cbn.
  all: repeat split; try reflexivity; try discriminate; intros.
  all: try (exfalso; intuition congruence).
Qed.

(** The first case at the request [{"request_id": "t2"}]. *)
Lemma C4_analyze_validation_witness :
  exists resp,
    response_of (serve world_ok Analyze
                   (json_request [("request_id", VStr "t2")])) = Some resp
    /\ status resp = 400
    /\ field "error_code" resp = Some (VStr "VALIDATION_ERROR").
Proof.
  destruct (C4_analyze_validation world_ok [("request_id", VStr "t2")])
    as (resp & Hresp & Hfalsy & _).
  destruct Hfalsy as (Hstatus & Hcode & _); [reflexivity | reflexivity |].
  exists resp. auto.
Defined.

(** C5 fails: a [messages] that is a JSON object is not a sequence, yet
    validation passes and the provider is called with it; a [messages] that
    is a number passes the check as well and the request then ends in the
    application's [Exception] handler, not in a [VALIDATION_ERROR]; so does
    a body that parses to a JSON array, which has no [messages]. *)
Lemma C5_non_sequence_messages_pass_validation :
  nonempty_list (VDict [("role", VStr "user")]) = false
  /\ (exists resp,
        response_of (serve world_ok Chat
                       (json_request
                          [("messages", VDict [("role", VStr "user")])]))
        = Some resp
        /\ status resp = 200
        /\ List.length (external_calls
                     (state_of (serve world_ok Chat
                                  (json_request
                                     [("messages",
                                       VDict [("role", VStr "user")])]))))
           = 1%nat)
  /\ nonempty_list (VInt 7) = false
  /\ (exists resp,
        response_of (serve world_ok Chat (json_request [("messages", VInt 7)]))
        = Some resp
        /\ status resp = 500
        /\ field "error_code" resp = Some (VStr "INTERNAL_ERROR"))
  /\ (exists resp,
        response_of (serve world_ok Chat (mkRequest true (Parsed (VList []))))
        = Some resp
        /\ status resp = 500
        /\ field "error_code" resp = Some (VStr "INTERNAL_ERROR")).
Proof.
  split; [reflexivity |].
  split; [eexists; repeat split; reflexivity |].
  split; [reflexivity |].
  split; eexists; repeat split; reflexivity.
Qed.

(** C5, amended: for a body that is a JSON object, when [messages] is
    missing or falsy the response is 400 with [VALIDATION_ERROR] and the
    provider is not called; the check passes exactly when [messages] is
    truthy; and when [messages] is a non-empty array the provider is called
    once, with the array as it came. *)
Theorem C5_chat_validation (w : world) (d : dict) :
  exists resp,
    response_of (serve w Chat (json_request d)) = Some resp
    /\ (truthy (get d "messages" (VList [])) = false ->
        status resp = 400
        /\ field "error_code" resp = Some (VStr "VALIDATION_ERROR")
        /\ external_calls (state_of (serve w Chat (json_request d))) = [])
    /\ (truthy (get d "messages" (VList [])) = true ->
        field "error_code" resp <> Some (VStr "VALIDATION_ERROR"))
    /\ (nonempty_list (get d "messages" (VList [])) = true ->
        field "error_code" resp <> Some (VStr "VALIDATION_ERROR")
        /\ exists a o,
             external_calls (state_of (serve w Chat (json_request d)))
             = [EvChatCreate a o]
             /\ ca_messages a = get d "messages" (VList [])).
Proof.
  serve_cases_json w Chat d.
  all: eexists; split; [reflexivity |].
  all: unfold field; cbn.
  all: repeat split; try reflexivity; try discriminate; intros;
    try discriminate.
  all: do 2 eexists; split; reflexivity.
Qed.

(** The first case at the request [{"request_id": "test-chat"}]. *)
Lemma C5_chat_validation_witness :
  exists resp,
    response_of (serve world_ok Chat
                   (json_request [("request_id", VStr "test-chat")]))
    = Some resp
    /\ status resp = 400
    /\ field "error_code" resp = Some (VStr "VALIDATION_ERROR").
Proof.
  destruct (C5_chat_validation world_ok [("request_id", VStr "test-chat")])
    as (resp & Hresp & Hfalsy & _).
  destruct Hfalsy as (Hstatus & Hcode & _); [reflexivity |].
  exists resp. auto.
Defined.

(** ** The analyze prompt *)

Lemma append_assoc (a b c : string) : ((a ++ b) ++ c = a ++ (b ++ c))%string.
Proof.
  induction a as [| ch a IH]; [reflexivity |].
  change (String ch ((a ++ b) ++ c) = String ch (a ++ (b ++ c)))%string.
  now rewrite IH.
Qed.

Lemma section_text_of_string (w : world) (t : string) :
  section_text w (VStr t) = if (t =? "")%string then None else Some t.
Proof. unfold section_text. cbn. destruct (t =? "")%string; reflexivity. Qed.

(** C9: on every valid [/analyze] request, one whose [query] or [sources]
    is not empty, the provider is called once and its input is the labelled
    query section (present exactly when [query] is not empty), then the
    labelled source section (present exactly when [sources] is not empty),
    then the closing instruction; a field that is not a string is rendered
    by [str]. *)
Theorem C9_analyze_prompt (w : world) (d : dict) :
  truthy (get d "query" (VStr "")) = true
  \/ truthy (get d "sources" (VStr "")) = true ->
  exists a o,
    external_calls (state_of (serve w Analyze (json_request d)))
    = [EvResponsesCreate a o]
    /\ ra_input a
       = prompt_spec (section_text w (get d "query" (VStr "")))
                     (section_text w (get d "sources" (VStr ""))).
Proof.
  intros Hvalid. unfold section_text.
  serve_cases_json w Analyze d.
  all: try (destruct Hvalid; discriminate).
  all: do 2 eexists; split; [reflexivity |].
  all: unfold prompt_spec, query_section, sources_section; cbn.
  all: rewrite ?append_assoc; reflexivity.
Qed.

(** The prompt for a query and sources, written out, and the prompt for a
    query with sources that are a number. *)
Lemma C9_analyze_prompt_witness :
  (exists a o,
     external_calls
       (state_of (serve world_ok Analyze
                    (json_request [("query", VStr "What is AI?");
                                   ("sources", VStr "AI is artificial intelligence.")])))
     = [EvResponsesCreate a o]
     /\ ra_input a
        = "Research Query: What is AI?" ++ nl ++ nl
          ++ "Source Content:" ++ nl ++ "AI is artificial intelligence."
          ++ nl ++ nl
          ++ "Please analyze the above content and provide a comprehensive research summary.")
  /\ (exists a o,
        external_calls
          (state_of (serve world_ok Analyze
                       (json_request [("query", VStr "q"); ("sources", VInt 5)])))
        = [EvResponsesCreate a o]
        /\ ra_input a
           = "Research Query: q" ++ nl ++ nl
             ++ "Source Content:" ++ nl ++ "5" ++ nl ++ nl
             ++ "Please analyze the above content and provide a comprehensive research summary.").
Proof.
  split.
  - destruct (C9_analyze_prompt world_ok
                [("query", VStr "What is AI?");
                 ("sources", VStr "AI is artificial intelligence.")])
      as (a & o & Hcalls & Hinput); [left; reflexivity |].
    exists a, o. split; [exact Hcalls |]. rewrite Hinput. reflexivity.
  - destruct (C9_analyze_prompt world_ok
                [("query", VStr "q"); ("sources", VInt 5)])
      as (a & o & Hcalls & Hinput); [right; reflexivity |].
    exists a, o. split; [exact Hcalls |]. rewrite Hinput. reflexivity.
Defined.

(** ** Provider failures *)

(** The three specific failure classes have no subclasses and exclude one
    another. *)
Lemma isinstance_specific (e : exn) (c : exn_class) :
  In c [AuthenticationError; RateLimitError; APITimeoutError] ->
  isinstance e c = true -> exn_cls e = c.
Proof.
  unfold isinstance. intros Hin H.
  destruct Hin as [<- | [<- | [<- | []]]];
    destruct e as [[] m ra]; cbn in *; congruence.
Qed.

Lemma isinstance_of_class (e : exn) (c : exn_class) :
  isinstance e c = issubclass (exn_cls e) c.
Proof. reflexivity. Qed.

(** Decide the class tests of a leaf once the class of [e] is known. *)
Ltac class_known e c :=
  let H := fresh "Hcls" in
  assert (H : exn_cls e = c)
    by (apply isinstance_specific; [cbn; tauto | assumption]);
  rewrite ?isinstance_of_class in *; rewrite H in *; cbn in *.

(** On [/analyze] a generic API error is classified by its message. *)
Lemma analyze_generic_api_error (w : world) (req : request) (e : exn) :
  provider_raised (state_of (serve w Analyze req)) e ->
  generic_api_error e = true ->
  exists resp,
    response_of (serve w Analyze req) = Some resp
    /\ field "success" resp = Some (VBool false)
    /\ if (contains "context_length" (lower (exn_str e))
           || contains "maximum" (lower (exn_str e)))%bool
       then status resp = 400
            /\ field "error_code" resp = Some (VStr "CONTEXT_LENGTH")
            /\ field "recoverable" resp = Some (VBool false)
       else status resp = 502
            /\ field "error_code" resp = Some (VStr "SERVER_ERROR")
            /\ field "recoverable" resp = Some (VBool true)
            /\ field "error_message" resp
               = Some (VStr ("OpenAI API error: " ++ exn_str e)).
Proof.
  intros Hraised Hgeneric.
  serve_cases w Analyze req; find_raised Hraised.
  all: unfold generic_api_error in Hgeneric.
  all: repeat match goal with
         | E : isinstance _ _ = _ |- _ => rewrite E in Hgeneric
         end.
  all: cbn in Hgeneric; rewrite ?andb_false_r in Hgeneric;
    try discriminate Hgeneric.
  all: eexists; split; [reflexivity |].
  all: match goal with E : (_ || _)%bool = _ |- _ => rewrite E end.
  all: repeat split; reflexivity.
Qed.

(** On [/chat] a generic API error is a [SERVER_ERROR] whatever it says. *)
Lemma chat_generic_api_error (w : world) (req : request) (e : exn) :
  provider_raised (state_of (serve w Chat req)) e ->
  generic_api_error e = true ->
  exists resp,
    response_of (serve w Chat req) = Some resp
    /\ status resp = 502
    /\ field "error_code" resp = Some (VStr "SERVER_ERROR")
    /\ field "recoverable" resp = Some (VBool true)
    /\ field "error_message" resp
       = Some (VStr ("OpenAI API error: " ++ exn_str e)).
Proof.
  intros Hraised Hgeneric.
  serve_cases w Chat req; find_raised Hraised.
  all: unfold generic_api_error in Hgeneric.
  all: repeat match goal with
         | E : isinstance _ _ = _ |- _ => rewrite E in Hgeneric
         end.
  all: cbn in Hgeneric; rewrite ?andb_false_r in Hgeneric;
    try discriminate Hgeneric.
  all: eexists; repeat split; reflexivity.
Qed.

(** C1, at the failing input: the provider rejects a [/chat] call with a
    generic API error whose message says "maximum context length".  The
    lower-cased message contains "maximum"; [/analyze] answers this failure
    with 400 and [CONTEXT_LENGTH], and [/chat] answers it with 502 and a
    recoverable [SERVER_ERROR]. *)
Theorem C1_chat_context_length_is_server_error :
  generic_api_error context_error = true
  /\ contains "maximum" (lower (exn_str context_error)) = true
  /\ (exists resp,
        response_of (serve (world_failing context_error) Chat
                       (json_request [("request_id", VStr "c1");
                                      ("messages", hello_messages)]))
        = Some resp
        /\ status resp = 502
        /\ field "error_code" resp = Some (VStr "SERVER_ERROR")
        /\ field "recoverable" resp = Some (VBool true))
  /\ (exists resp,
        response_of (serve (world_failing context_error) Analyze
                       (json_request [("request_id", VStr "a1");
                                      ("query", VStr "What is AI?")]))
        = Some resp
        /\ status resp = 400
        /\ field "error_code" resp = Some (VStr "CONTEXT_LENGTH")
        /\ field "recoverable" resp = Some (VBool false)).
Proof.
  split; [reflexivity |]. split; [reflexivity |].
  split; eexists; repeat split; reflexivity.
Qed.

Lemma getattr_retry_after_default (e : exn) (default : value) :
  getattr_retry_after e default = default.
Proof.
  unfold getattr_retry_after, getattr, exn_attributes, get.
  destruct (issubclass (exn_cls e) APIError); reflexivity.
Qed.

(** C7, as the code has it: when the provider call fails with a rate-limit
    error, on either route, the response has status 429, [error_code]
    [RATE_LIMIT] and [recoverable] true, and [details.retry_after_seconds]
    is 60 whether or not the failure carries a retry hint: the handlers
    look for an attribute [retry_after] that the failure does not have, and
    do not read the hint in its response headers. *)
Theorem C7_retry_after_seconds_is_always_60 (w : world) (r : route)
    (req : request) (e : exn) :
  provider_raised (state_of (serve w r req)) e ->
  isinstance e RateLimitError = true ->
  exists resp,
    response_of (serve w r req) = Some resp
    /\ status resp = 429
    /\ field "error_code" resp = Some (VStr "RATE_LIMIT")
    /\ field "recoverable" resp = Some (VBool true)
    /\ retry_after_seconds resp = Some (VInt 60).
Proof.
  intros Hraised Hrate.
  destruct r; [serve_cases w Analyze req | serve_cases w Chat req];
    find_raised Hraised; try congruence.
  all: try (class_known e RateLimitError; discriminate).
  all: eexists; split; [reflexivity |].
  all: unfold retry_after_seconds, field; cbn.
  all: rewrite getattr_retry_after_default.
  all: repeat split; reflexivity.
Qed.

(** A rate limit whose response says [Retry-After: 17], on [/chat]: the
    envelope says 60. *)
Lemma C7_retry_after_seconds_is_always_60_witness :
  exn_retry_after_header (rate_limit_error (Some "17")) = Some "17"
  /\ exists resp,
       response_of (serve (world_failing (rate_limit_error (Some "17")))
                      Chat (json_request [("messages", hello_messages)]))
       = Some resp
       /\ status resp = 429
       /\ retry_after_seconds resp = Some (VInt 60).
Proof.
  split; [reflexivity |].
  destruct (C7_retry_after_seconds_is_always_60
              (world_failing (rate_limit_error (Some "17"))) Chat
              (json_request [("messages", hello_messages)])
              (rate_limit_error (Some "17")))
    as (resp & Hresp & Hstatus & _ & _ & Hseconds).
  - right. eexists. cbn. right. right. left. reflexivity.
  - reflexivity.
  - exists resp. repeat split; auto.
Defined.

(** ** The statuses of [/chat] *)

(** C3 fails: a provider timeout on [/chat] is answered with 504, and a
    body over the size limit with 413. *)
Lemma C3_chat_timeout_is_504 :
  (exists resp,
     response_of (serve (world_failing timeout_error) Chat
                    (json_request [("messages", hello_messages)])) = Some resp
     /\ field "success" resp = Some (VBool false)
     /\ field "error_code" resp = Some (VStr "TIMEOUT")
     /\ status resp = 504)
  /\ (exists resp,
        response_of (serve world_ok Chat (mkRequest true TooLarge)) = Some resp
        /\ field "success" resp = Some (VBool false)
        /\ status resp = 413).
Proof.
  split; eexists; repeat split; reflexivity.
Qed.

(** C3, amended: every request to [/chat] gets a response; it is the
    success envelope with status 200, or an error envelope whose status is
    one of 400, 401, 413, 429, 500, 502 and 504. *)
Theorem C3_chat_statuses (w : world) (req : request) :
  exists resp,
    response_of (serve w Chat req) = Some resp
    /\ ((field "success" resp = Some (VBool true) /\ status resp = 200)
        \/ (field "success" resp = Some (VBool false)
            /\ In (status resp) [400; 401; 413; 429; 500; 502; 504])).
Proof.
  serve_cases w Chat req.
  all: eexists; split; [reflexivity |].
  all: cbn; first [ left; split; reflexivity
                  | right; split; [reflexivity | tauto] ].
Qed.

(** ** Token accounting *)

(** C8 fails on [/chat] when the completion has no choice: the call
    succeeded and reports 7 tokens, [response.choices[0]] raises
    [IndexError] inside the [try], and the answer is the [BRIDGE_ERROR]
    envelope, which has no [tokens_used]. *)
Lemma C8_chat_without_choice_reports_no_tokens :
  provider_returned
    (state_of (serve (world_of (Ok ok_response)
                        (Ok (mkChatCompletion [] (Some (mkUsage 7)))))
                 Chat (json_request [("messages", hello_messages)])))
    (FromChat (mkChatCompletion [] (Some (mkUsage 7))))
  /\ exists resp,
       response_of (serve (world_of (Ok ok_response)
                             (Ok (mkChatCompletion [] (Some (mkUsage 7)))))
                      Chat (json_request [("messages", hello_messages)]))
       = Some resp
       /\ status resp = 500
       /\ field "error_code" resp = Some (VStr "BRIDGE_ERROR")
       /\ field "tokens_used" resp = None.
Proof.
  split.
  - eexists. cbn. right. right. left. reflexivity.
  - eexists. repeat split; reflexivity.
Qed.

(** C8, amended: when the provider call returns, on [/analyze], or on
    [/chat] with at least one choice in the result, the response is the
    success envelope and its [tokens_used] is the [total_tokens] of the
    result's usage metadata, or 0 when the result has no usage metadata. *)
Theorem C8_tokens_used (w : world) (r : route) (req : request)
    (pr : provider_result) :
  provider_returned (state_of (serve w r req)) pr ->
  has_choice pr = true ->
  exists resp,
    response_of (serve w r req) = Some resp
    /\ status resp = 200
    /\ field "success" resp = Some (VBool true)
    /\ (forall n, reported_usage pr = Some (mkUsage n) ->
          field "tokens_used" resp = Some (VInt n))
    /\ (reported_usage pr = None ->
          field "tokens_used" resp = Some (VInt 0)).
Proof.
  intros Hret Hchoice.
  destruct r; [serve_cases w Analyze req | serve_cases w Chat req];
    destruct pr as [res | res]; find_returned Hret.
  all: cbn in Hchoice;
    try match goal with
        | E : choices _ = _ |- _ => rewrite E in Hchoice
        end;
    try discriminate Hchoice.
  all: eexists; split; [reflexivity |].
  all: unfold field; cbn.
  all: repeat split; try reflexivity.
  all: intros; match goal with H : _ = _ :> option usage |- _ => rewrite H end;
    reflexivity.
Qed.

(** Scenario A of the specification: 42 tokens reported, 42 returned. *)
Lemma C8_tokens_used_witness :
  exists resp,
    response_of (serve world_ok Analyze
                   (json_request [("request_id", VStr "t1");
                                  ("query", VStr "What is AI?")])) = Some resp
    /\ field "tokens_used" resp = Some (VInt 42).
Proof.
  destruct (C8_tokens_used world_ok Analyze
              (json_request [("request_id", VStr "t1");
                             ("query", VStr "What is AI?")])
              (FromResponses ok_response))
    as (resp & Hresp & _ & _ & Hsome & _).
  - eexists. cbn. right. right. left. reflexivity.
  - reflexivity.
  - exists resp. split; [exact Hresp | apply Hsome; reflexivity].
Defined.

(** ** Request ids *)

(** C6 fails: the client supplies ["r1"], [messages] is a number, the log
    line's [len(messages)] raises outside the [try], and the application's
    [Exception] handler answers with request id ["unknown"].  A body that
    parses to a JSON array supplies no id and gets ["unknown"] as well, not
    a generated id. *)
Lemma C6_request_id_lost_outside_try :
  lookup "request_id" [("request_id", VStr "r1"); ("messages", VInt 7)]
  = Some (VStr "r1")
  /\ (exists resp,
        response_of (serve world_ok Chat
                       (json_request [("request_id", VStr "r1");
                                      ("messages", VInt 7)])) = Some resp
        /\ field "request_id" resp = Some (VStr "unknown"))
  /\ (exists resp,
        response_of (serve world_ok Analyze (mkRequest true (Parsed (VList []))))
        = Some resp
        /\ field "request_id" resp = Some (VStr "unknown")).
Proof.
  split; [reflexivity |]. split; eexists; split; reflexivity.
Qed.

(** C6, amended: for a body that is a JSON object, on [/analyze], and on
    [/chat] when [messages] is falsy or has a length, the response carries
    the request id the client supplied; when the client supplied none it
    carries [auto-] followed by the whole seconds of the clock reading taken
    at the start of handling, whatever the provider does afterwards. *)
Theorem C6_request_id (w : world) (r : route) (d : dict) :
  (r = Chat ->
   truthy (get d "messages" (VList [])) = true ->
   sized (get d "messages" (VList [])) = true) ->
  exists resp,
    response_of (serve w r (json_request d)) = Some resp
    /\ (forall rid, lookup "request_id" d = Some rid ->
          field "request_id" resp = Some rid)
    /\ (lookup "request_id" d = None ->
          field "request_id" resp
          = Some (VStr ("auto-" ++ str_of_int (int_of_Q (time_time w 1))))).
Proof.
  intros Hsized.
  destruct r; [clear Hsized | specialize (Hsized eq_refl)].
  - serve_cases_json w Analyze d.
    all: eexists; split; [reflexivity |].
    all: unfold field, get; cbn.
    all: split; intros; match goal with H : lookup _ _ = _ |- _ => rewrite H end;
      reflexivity.
  - serve_cases_json w Chat d.
    all: try (specialize (Hsized eq_refl); discriminate Hsized).
    all: eexists; split; [reflexivity |].
    all: unfold field, get; cbn.
    all: split; intros; match goal with H : lookup _ _ = _ |- _ => rewrite H end;
      reflexivity.
Qed.

(** No request id supplied: the generated one is the same whether the
    provider answers or times out. *)
Lemma C6_request_id_witness :
  (exists resp,
     response_of (serve world_ok Chat
                    (json_request [("messages", hello_messages)])) = Some resp
     /\ field "request_id" resp = Some (VStr "auto-1700000000"))
  /\ (exists resp,
        response_of (serve (world_failing timeout_error) Chat
                       (json_request [("messages", hello_messages)]))
        = Some resp
        /\ field "request_id" resp = Some (VStr "auto-1700000000")).
Proof.
  split.
  - destruct (C6_request_id world_ok Chat [("messages", hello_messages)])
      as (resp & Hresp & _ & Hauto); [reflexivity |].
    exists resp. split; [exact Hresp | exact (Hauto eq_refl)].
  - destruct (C6_request_id (world_failing timeout_error) Chat
                [("messages", hello_messages)])
      as (resp & Hresp & _ & Hauto); [reflexivity |].
    exists resp. split; [exact Hresp | exact (Hauto eq_refl)].
Defined.

(** ** The error envelope *)

(** What [create_error_response] builds: the six fields, and [details]
    exactly when the argument is truthy. *)
Lemma create_error_response_fields (w : world) (rid : value)
    (code msg : string) (rec : bool) (details : value) (hs : Z) (s : state) :
  exists resp,
    create_error_response w rid code msg rec details hs s = (Ok resp, s)
    /\ status resp = hs
    /\ field "request_id" resp = Some rid
    /\ field "success" resp = Some (VBool false)
    /\ field "error_code" resp = Some (VStr code)
    /\ field "error_message" resp = Some (VStr msg)
    /\ field "recoverable" resp = Some (VBool rec)
    /\ field "timestamp" resp
       = Some (VStr (replace "+00:00" "Z" (utcnow_isoformat w)))
    /\ field "details" resp = if truthy details then Some details else None.
Proof.
  eexists. split; [reflexivity |].
  unfold field. cbn.
  destruct (truthy details); cbn; repeat split; reflexivity.
Qed.

(** C10: every response of the bridge is either the success envelope,
    with status 200, of a provider call that returned, or an error envelope
    with another status; an error envelope has [request_id], [success]
    false, [error_code], [error_message], [recoverable] and [timestamp], and
    it has [details] only when its [error_code] is [RATE_LIMIT]. *)
Theorem C10_error_envelope (w : world) (r : route) (req : request) :
  exists resp,
    response_of (serve w r req) = Some resp
    /\ ((status resp = 200
         /\ field "success" resp = Some (VBool true)
         /\ exists pr,
              provider_returned (state_of (serve w r req)) pr
              /\ has_choice pr = true)
        \/ (status resp <> 200 /\ error_envelope resp)).
Proof.
  destruct r; [serve_cases w Analyze req | serve_cases w Chat req].
  all: eexists; split; [reflexivity |].
  all: first
         [ right; split; [discriminate |];
           unfold error_envelope, field; cbn;
           repeat split; eauto;
           intros H; first [ reflexivity | elim H; reflexivity ]
         | left; split; [reflexivity |]; split; [reflexivity |];
           first
             [ eexists (FromResponses _); split;
               [ eexists; cbn; right; right; left; reflexivity
               | reflexivity ]
             | eexists (FromChat _); split;
               [ eexists; cbn; right; right; left; reflexivity
               | cbn;
                 match goal with
                 | E : choices _ = _ |- _ => rewrite E
                 end; reflexivity ] ] ].
Qed.

(** ** The error taxonomy *)

(** Every request is answered, with the success envelope and status 200 or
    with an error envelope whose [error_code], status and [recoverable] are
    one row of the taxonomy. *)
Theorem error_taxonomy (w : world) (r : route) (req : request) :
  exists resp,
    response_of (serve w r req) = Some resp
    /\ ((field "success" resp = Some (VBool true) /\ status resp = 200)
        \/ exists code rec,
             field "success" resp = Some (VBool false)
             /\ field "error_code" resp = Some (VStr code)
             /\ field "recoverable" resp = Some (VBool rec)
             /\ In (code, status resp, rec) taxonomy).
Proof.
  destruct r; [serve_cases w Analyze req | serve_cases w Chat req].
  all: eexists; split; [reflexivity |].
  all: first [ left; split; reflexivity | right ].
  all: do 2 eexists; split; [reflexivity |].
  all: split; [reflexivity |]. all: split; [reflexivity |].
  all: cbn; repeat (first [ left; reflexivity | right ]).
Qed.

(** No retries and no second provider: a request leads to at most one
    provider call, and to the call of its own route. *)
Theorem at_most_one_provider_call (w : world) (r : route) (req : request) :
  (List.length (external_calls (state_of (serve w r req))) <= 1)%nat
  /\ forallb (call_of_route r) (external_calls (state_of (serve w r req)))
     = true.
Proof.
  destruct r; [serve_cases w Analyze req | serve_cases w Chat req].
  all: cbn; split; [lia | reflexivity].
Qed.

(** An authentication failure of the provider is answered with 401 and a
    non-recoverable [AUTH_ERROR] on both routes, whatever its message says,
    and the provider's message is not passed on. *)
Theorem authentication_failure (w : world) (r : route) (req : request)
    (e : exn) :
  provider_raised (state_of (serve w r req)) e ->
  isinstance e AuthenticationError = true ->
  exists resp,
    response_of (serve w r req) = Some resp
    /\ status resp = 401
    /\ field "error_code" resp = Some (VStr "AUTH_ERROR")
    /\ field "recoverable" resp = Some (VBool false)
    /\ field "error_message" resp = Some (VStr "Invalid OpenAI API key").
Proof.
  intros Hraised Hauth.
  destruct r; [serve_cases w Analyze req | serve_cases w Chat req];
    find_raised Hraised; try congruence.
  all: eexists; repeat split; reflexivity.
Qed.

Lemma authentication_failure_witness :
  exists resp,
    response_of
      (serve (world_failing
                (mkExn AuthenticationError
                   "Incorrect API key; maximum context_length" None))
         Analyze (json_request [("query", VStr "Test")])) = Some resp
    /\ status resp = 401
    /\ field "error_code" resp = Some (VStr "AUTH_ERROR").
Proof.
  destruct (authentication_failure
              (world_failing
                 (mkExn AuthenticationError
                    "Incorrect API key; maximum context_length" None))
              Analyze (json_request [("query", VStr "Test")])
              (mkExn AuthenticationError
                 "Incorrect API key; maximum context_length" None))
    as (resp & Hresp & Hstatus & Hcode & _).
  - left. eexists. cbn. right. right. left. reflexivity.
  - reflexivity.
  - exists resp. auto.
Defined.

(** A provider timeout is answered with 504 and a recoverable [TIMEOUT] on
    both routes. *)
Theorem timeout_failure (w : world) (r : route) (req : request) (e : exn) :
  provider_raised (state_of (serve w r req)) e ->
  isinstance e APITimeoutError = true ->
  exists resp,
    response_of (serve w r req) = Some resp
    /\ status resp = 504
    /\ field "error_code" resp = Some (VStr "TIMEOUT")
    /\ field "recoverable" resp = Some (VBool true)
    /\ field "error_message" resp
       = Some (VStr "Request timed out. Try again with a shorter input.").
Proof.
  intros Hraised Htimeout.
  destruct r; [serve_cases w Analyze req | serve_cases w Chat req];
    find_raised Hraised; try congruence.
  all: try (class_known e APITimeoutError; discriminate).
  all: eexists; repeat split; reflexivity.
Qed.

Lemma timeout_failure_witness :
  exists resp,
    response_of (serve (world_failing timeout_error) Chat
                   (json_request [("messages", hello_messages)])) = Some resp
    /\ status resp = 504
    /\ field "recoverable" resp = Some (VBool true).
Proof.
  destruct (timeout_failure (world_failing timeout_error) Chat
              (json_request [("messages", hello_messages)]) timeout_error)
    as (resp & Hresp & Hstatus & _ & Hrec & _).
  - right. eexists. cbn. right. right. left. reflexivity.
  - reflexivity.
  - exists resp. auto.
Defined.

(** A failure of the provider call that is not an SDK API error is answered
    with 500 and a non-recoverable [BRIDGE_ERROR] whose message carries the
    failure's description. *)
Theorem unexpected_failure (w : world) (r : route) (req : request) (e : exn) :
  provider_raised (state_of (serve w r req)) e ->
  isinstance e APIError = false ->
  exists resp,
    response_of (serve w r req) = Some resp
    /\ status resp = 500
    /\ field "error_code" resp = Some (VStr "BRIDGE_ERROR")
    /\ field "recoverable" resp = Some (VBool false)
    /\ field "error_message" resp
       = Some (VStr ("Internal bridge error: " ++ exn_str e)).
Proof.
  intros Hraised Hother.
  destruct r; [serve_cases w Analyze req | serve_cases w Chat req];
    find_raised Hraised; try congruence.
  all: try (class_known e AuthenticationError; discriminate).
  all: try (class_known e RateLimitError; discriminate).
  all: try (class_known e APITimeoutError; discriminate).
  all: eexists; repeat split; reflexivity.
Qed.

Lemma unexpected_failure_witness :
  exists resp,
    response_of
      (serve (world_failing (mkExn ValueError "bad value" None)) Analyze
         (json_request [("query", VStr "Test")])) = Some resp
    /\ status resp = 500
    /\ field "error_message" resp
       = Some (VStr "Internal bridge error: bad value").
Proof.
  destruct (unexpected_failure
              (world_failing (mkExn ValueError "bad value" None)) Analyze
              (json_request [("query", VStr "Test")])
              (mkExn ValueError "bad value" None))
    as (resp & Hresp & Hstatus & _ & _ & Hmsg).
  - left. eexists. cbn. right. right. left. reflexivity.
  - reflexivity.
  - exists resp. auto.
Defined.

(** ** The success envelopes *)

(** Two readings of the same [choices] list agree. *)
Ltac same_choices :=
  match goal with
  | E1 : choices ?r = ?l1, E2 : choices ?r = ?l2 |- _ =>
      tryif constr_eq l1 l2 then fail
      else (let H := fresh in
            assert (H : l1 = l2) by congruence;
            inversion H; subst; clear H)
  end.

(** When the provider answers an [/analyze] call, the response has status
    200, [success] true, the provider's text as [analysis], and none of the
    error fields. *)
Theorem analyze_success (w : world) (req : request) (res : response) :
  provider_returned (state_of (serve w Analyze req)) (FromResponses res) ->
  exists resp,
    response_of (serve w Analyze req) = Some resp
    /\ status resp = 200
    /\ field "success" resp = Some (VBool true)
    /\ field "analysis" resp = Some (VStr (output_text res))
    /\ field "error_code" resp = None
    /\ field "error_message" resp = None.
Proof.
  intros Hret.
  serve_cases w Analyze req; find_returned Hret.
  all: eexists; repeat split; reflexivity.
Qed.

Lemma analyze_success_witness :
  exists resp,
    response_of (serve world_ok Analyze
                   (json_request [("request_id", VStr "t1");
                                  ("query", VStr "What is AI?")])) = Some resp
    /\ status resp = 200
    /\ field "analysis" resp = Some (VStr "AI is...").
Proof.
  destruct (analyze_success world_ok
              (json_request [("request_id", VStr "t1");
                             ("query", VStr "What is AI?")])
              ok_response)
    as (resp & Hresp & Hstatus & _ & Htext & _).
  - eexists. cbn. right. right. left. reflexivity.
  - exists resp. auto.
Defined.

(** When the provider answers a [/chat] call with at least one choice, the
    response has status 200, the first choice's message content as
    [content] ([null] when the message has none) and the first choice's
    [finish_reason]; further choices are ignored. *)
Theorem chat_success (w : world) (req : request) (res : chat_completion)
    (c : choice) (rest : list choice) :
  provider_returned (state_of (serve w Chat req)) (FromChat res) ->
  choices res = c :: rest ->
  exists resp,
    response_of (serve w Chat req) = Some resp
    /\ status resp = 200
    /\ field "success" resp = Some (VBool true)
    /\ field "content" resp = Some (content_of c)
    /\ field "finish_reason" resp = Some (VStr (finish_reason c)).
Proof.
  intros Hret Hchoices.
  serve_cases w Chat req; find_returned Hret.
  all: same_choices.
  all: eexists; repeat split; reflexivity.
Qed.

Lemma chat_success_witness :
  exists resp,
    response_of (serve world_ok Chat
                   (json_request [("messages", hello_messages)])) = Some resp
    /\ field "content" resp = Some (VStr "Hello!")
    /\ field "finish_reason" resp = Some (VStr "stop").
Proof.
  destruct (chat_success world_ok
              (json_request [("messages", hello_messages)])
              ok_completion (mkChoice (Some "Hello!") "stop") [])
    as (resp & Hresp & _ & _ & Hcontent & Hfinish).
  - eexists. cbn. right. right. left. reflexivity.
  - reflexivity.
  - exists resp. auto.
Defined.

(** When the provider answers a [/chat] call with no choice at all, taking
    the first choice fails inside the [try] and the response is 500 with a
    non-recoverable [BRIDGE_ERROR] naming the index error. *)
Theorem chat_without_choice (w : world) (req : request)
    (res : chat_completion) :
  provider_returned (state_of (serve w Chat req)) (FromChat res) ->
  choices res = [] ->
  exists resp,
    response_of (serve w Chat req) = Some resp
    /\ status resp = 500
    /\ field "error_code" resp = Some (VStr "BRIDGE_ERROR")
    /\ field "recoverable" resp = Some (VBool false)
    /\ field "error_message" resp
       = Some (VStr "Internal bridge error: list index out of range").
Proof.
  intros Hret Hchoices.
  serve_cases w Chat req; find_returned Hret.
  all: try same_choices.
  all: eexists; repeat split; reflexivity.
Qed.

Lemma chat_without_choice_witness :
  exists resp,
    response_of (serve (world_of (Ok ok_response)
                          (Ok (mkChatCompletion [] None)))
                   Chat (json_request [("messages", hello_messages)]))
    = Some resp
    /\ status resp = 500
    /\ field "error_code" resp = Some (VStr "BRIDGE_ERROR").
Proof.
  destruct (chat_without_choice
              (world_of (Ok ok_response) (Ok (mkChatCompletion [] None)))
              (json_request [("messages", hello_messages)])
              (mkChatCompletion [] None))
    as (resp & Hresp & Hstatus & Hcode & _).
  - eexists. cbn. right. right. left. reflexivity.
  - reflexivity.
  - exists resp. auto.
Defined.

(** ** What is sent to the provider *)

(** The provider is called with the client's [model] and [max_tokens], or
    with ["gpt-5-nano"] and 4096 when the request object has no such key,
    and on [/chat] with the client's [messages] as they came.  A key that is
    present is passed on whatever its value, [null] included. *)
Theorem provider_call_arguments (w : world) (r : route) (d : dict) :
  Forall (call_arguments_from d)
    (external_calls (state_of (serve w r (json_request d)))).
Proof.
  destruct r; [serve_cases_json w Analyze d | serve_cases_json w Chat d].
  all: cbn; repeat first [ apply Forall_nil | apply Forall_cons ].
  all: cbn; repeat split; try reflexivity; symmetry; assumption.
Qed.

(** ** Requests that never reach a view's [try] *)

(** A request with no JSON Content-Type, as the test suite sends it. *)
Lemma non_json_content_type_rejected_witness :
  serve world_ok Analyze (mkRequest false Malformed) =
    (Ok (mkHttp
           [ ("request_id", VStr "unknown");
             ("success", VBool false);
             ("error_code", VStr "VALIDATION_ERROR");
             ("error_message", VStr "Request must be JSON");
             ("recoverable", VBool false);
             ("timestamp", VStr "2025-01-15T10:30:00.123456Z") ]
           400),
     init).
Proof.
  exact (non_json_content_type_rejected world_ok Analyze
           (mkRequest false Malformed) eq_refl).
Defined.

(** A body over [MAX_CONTENT_LENGTH] under a JSON Content-Type is answered
    by the 413 handler: [PAYLOAD_TOO_LARGE], request id ["unknown"], not
    recoverable; nothing is logged and the provider is not called. *)
Theorem oversized_body_rejected (w : world) (r : route) :
  serve w r (mkRequest true TooLarge) =
    (Ok (mkHttp
           [ ("request_id", VStr "unknown");
             ("success", VBool false);
             ("error_code", VStr "PAYLOAD_TOO_LARGE");
             ("error_message",
              VStr "Request body exceeds maximum allowed size (50MB)");
             ("recoverable", VBool false);
             ("timestamp", VStr (replace "+00:00" "Z" (utcnow_isoformat w))) ]
           413),
     mkState 1 [EvGetJson]).
Proof. destruct r; reflexivity. Qed.

(** A body that parses to something other than a JSON object makes
    [data.get] raise outside the [try]: the answer is 500 with
    [INTERNAL_ERROR] and request id ["unknown"], and the provider is not
    called. *)
Theorem non_object_body_is_internal_error (w : world) (r : route)
    (v : value) :
  is_dict v = false ->
  serve w r (mkRequest true (Parsed v)) =
    (Ok (mkHttp
           [ ("request_id", VStr "unknown");
             ("success", VBool false);
             ("error_code", VStr "INTERNAL_ERROR");
             ("error_message", VStr "An unexpected error occurred");
             ("recoverable", VBool false);
             ("timestamp", VStr (replace "+00:00" "Z" (utcnow_isoformat w))) ]
           500),
     mkState 1 [EvGetJson; EvLog ERROR]).
Proof.
  intros Hv. destruct v; try discriminate Hv; destruct r; reflexivity.
Qed.

Lemma non_object_body_is_internal_error_witness :
  response_of (serve world_ok Chat (mkRequest true (Parsed (VStr "hello"))))
  = Some (mkHttp
            [ ("request_id", VStr "unknown");
              ("success", VBool false);
              ("error_code", VStr "INTERNAL_ERROR");
              ("error_message", VStr "An unexpected error occurred");
              ("recoverable", VBool false);
              ("timestamp", VStr "2025-01-15T10:30:00.123456Z") ]
            500).
Proof.
  rewrite (non_object_body_is_internal_error world_ok Chat (VStr "hello")
             eq_refl).
  reflexivity.
Defined.

(** ** The health route *)

(** [/health] answers 200 with status ["healthy"] and version ["1.0.0"]
    whatever the environment; [openai_configured] is true exactly when
    [OPENAI_API_KEY] is set to a non-empty string; the clock is not read
    and nothing is logged or called. *)
Theorem health_reports_configuration (env : string -> option string)
    (w : world) :
  exists resp,
    health env w init = (Ok resp, init)
    /\ status resp = 200
    /\ field "status" resp = Some (VStr "healthy")
    /\ field "version" resp = Some (VStr "1.0.0")
    /\ (field "openai_configured" resp = Some (VBool true)
        <-> exists key, env "OPENAI_API_KEY" = Some key /\ key <> "").
Proof.
  eexists. split; [reflexivity |].
  unfold field, os_getenv; cbn.
  destruct (env "OPENAI_API_KEY") as [[| c key] |]; cbn.
  all: repeat split; auto.
  all: try (intros H; discriminate H).
  all: try (intros (key' & Hkey & Hne); congruence).
  intros _. eexists. split; [reflexivity | discriminate].
Qed.

(** ** Timestamps *)

Lemma replace_utc_offset (body : string) :
  plus_free body = true ->
  replace "+00:00" "Z" (body ++ "+00:00") = (body ++ "Z")%string.
Proof.
  unfold replace. induction body as [| c body IH]; intros Hfree.
  - reflexivity.
  - cbn in Hfree. apply andb_true_iff in Hfree. destruct Hfree as [Hc Hfree].
    change ((String c body ++ "+00:00")%string)
      with (String c (body ++ "+00:00")).
    change ((String c body ++ "Z")%string) with (String c (body ++ "Z")).
    cbn [replace_from String.prefix].
    destruct (ascii_dec "+" c) as [<- | _]; [discriminate Hc |].
    now rewrite (IH Hfree).
Qed.

(** Every response of either route carries a [timestamp], and when the
    clock's ISO rendering ends in the UTC offset [+00:00] the timestamp is
    that rendering with the offset replaced by [Z]. *)
Theorem timestamp_has_z_suffix (w : world) (r : route) (req : request)
    (body : string) :
  utcnow_isoformat w = (body ++ "+00:00")%string ->
  plus_free body = true ->
  exists resp,
    response_of (serve w r req) = Some resp
    /\ field "timestamp" resp = Some (VStr (body ++ "Z")).
Proof.
  intros Hiso Hfree.
  rewrite <- (replace_utc_offset body Hfree), <- Hiso.
  destruct r; [serve_cases w Analyze req | serve_cases w Chat req].
  all: eexists; split; reflexivity.
Qed.

Lemma timestamp_has_z_suffix_witness :
  exists resp,
    response_of (serve world_ok Analyze
                   (json_request [("query", VStr "What is AI?")])) = Some resp
    /\ field "timestamp" resp = Some (VStr "2025-01-15T10:30:00.123456Z").
Proof.
  exact (timestamp_has_z_suffix world_ok Analyze
           (json_request [("query", VStr "What is AI?")])
           "2025-01-15T10:30:00.123456" eq_refl eq_refl).
Defined.


(** ** The context-length heuristic *)

Lemma analyze_generic_api_error_witness :
  exists resp,
    response_of
      (serve (world_failing
                (mkExn InternalServerError "The server had an error" None))
         Analyze (json_request [("query", VStr "Test")])) = Some resp
    /\ status resp = 502
    /\ field "error_message" resp
       = Some (VStr "OpenAI API error: The server had an error").
Proof.
  destruct (analyze_generic_api_error
              (world_failing
                 (mkExn InternalServerError "The server had an error" None))
              (json_request [("query", VStr "Test")])
              (mkExn InternalServerError "The server had an error" None))
    as (resp & Hresp & _ & Hcase).
  - left. eexists. cbn. right. right. left. reflexivity.
  - reflexivity.
  - destruct Hcase as (Hstatus & _ & _ & Hmsg). exists resp. auto.
Defined.

Lemma chat_generic_api_error_witness :
  exists resp,
    response_of
      (serve (world_failing
                (mkExn InternalServerError "The server had an error" None))
         Chat (json_request [("messages", hello_messages)])) = Some resp
    /\ status resp = 502
    /\ field "error_message" resp
       = Some (VStr "OpenAI API error: The server had an error").
Proof.
  destruct (chat_generic_api_error
              (world_failing
                 (mkExn InternalServerError "The server had an error" None))
              (json_request [("messages", hello_messages)])
              (mkExn InternalServerError "The server had an error" None))
    as (resp & Hresp & Hstatus & _ & _ & Hmsg).
  - right. eexists. cbn. right. right. left. reflexivity.
  - reflexivity.
  - exists resp. auto.
Defined.

Lemma lower_app (a b : string) :
  lower (a ++ b) = (lower a ++ lower b)%string.
Proof.
  induction a as [| c a IH]; [reflexivity |].
  change (String (lower_ascii c) (lower (a ++ b))
          = String (lower_ascii c) (lower a ++ lower b)).
  now rewrite IH.
Qed.

Lemma prefix_app (n b : string) : String.prefix n (n ++ b) = true.
Proof.
  induction n as [| c n IH]; [destruct b; reflexivity |].
  change ((if ascii_dec c c then String.prefix n (n ++ b) else false) = true).
  destruct (ascii_dec c c); [exact IH | contradiction].
Qed.

Lemma contains_prefix (n h : string) :
  String.prefix n h = true -> contains n h = true.
Proof.
  intros H. destruct h as [| c h]; [exact H |].
  change ((String.prefix n (String c h) || contains n h)%bool = true).
  now rewrite H.
Qed.

Lemma contains_app (n a b : string) : contains n (a ++ n ++ b) = true.
Proof.
  induction a as [| c a IH].
  - change (contains n (n ++ b) = true).
    apply contains_prefix. apply prefix_app.
  - change ((String.prefix n (String c (a ++ n ++ b))
             || contains n (a ++ n ++ b))%bool = true).
    rewrite IH. apply orb_true_r.
Qed.

(** On [/analyze] the context-length test ignores letter case and
    position: a generic API error whose message has ["maximum"] or
    ["context_length"] anywhere in it, in any mix of upper and lower case,
    is answered with 400 and a non-recoverable [CONTEXT_LENGTH], and the
    provider's message is not passed on. *)
Theorem context_length_detection_ignores_case (w : world) (req : request)
    (e : exn) (before word after : string) :
  provider_raised (state_of (serve w Analyze req)) e ->
  generic_api_error e = true ->
  exn_str e = (before ++ word ++ after)%string ->
  lower word = "maximum" \/ lower word = "context_length" ->
  exists resp,
    response_of (serve w Analyze req) = Some resp
    /\ status resp = 400
    /\ field "error_code" resp = Some (VStr "CONTEXT_LENGTH")
    /\ field "recoverable" resp = Some (VBool false)
    /\ field "error_message" resp
       = Some (VStr "Content too large for model. Please reduce the source content size.").
Proof.
  intros Hraised Hgeneric Hmsg Hword.
  assert (Hdet : (contains "context_length" (lower (exn_str e))
                  || contains "maximum" (lower (exn_str e)))%bool = true).
  { rewrite Hmsg, !lower_app.
    destruct Hword as [-> | ->]; rewrite contains_app;
      [apply orb_true_r | reflexivity]. }
  clear Hmsg Hword.
  serve_cases w Analyze req; find_raised Hraised.
  all: unfold generic_api_error in Hgeneric.
  all: repeat match goal with
         | E : isinstance _ _ = _ |- _ => rewrite E in Hgeneric
         end.
  all: cbn in Hgeneric; rewrite ?andb_false_r in Hgeneric;
    try discriminate Hgeneric.
  all: try congruence.
  all: eexists; repeat split; reflexivity.
Qed.

Lemma context_length_detection_ignores_case_witness :
  exists resp,
    response_of
      (serve (world_failing
                (mkExn BadRequestError
                   "Request exceeds the MAXIMUM number of tokens" None))
         Analyze (json_request [("sources", VStr "long text")])) = Some resp
    /\ status resp = 400
    /\ field "error_code" resp = Some (VStr "CONTEXT_LENGTH").
Proof.
  destruct (context_length_detection_ignores_case
              (world_failing
                 (mkExn BadRequestError
                    "Request exceeds the MAXIMUM number of tokens" None))
              (json_request [("sources", VStr "long text")])
              (mkExn BadRequestError
                 "Request exceeds the MAXIMUM number of tokens" None)
              "Request exceeds the " "MAXIMUM" " number of tokens")
    as (resp & Hresp & Hstatus & Hcode & _).
  - left. eexists. cbn. right. right. left. reflexivity.
  - reflexivity.
  - reflexivity.
  - left. reflexivity.
  - exists resp. auto.
Defined.
